(** * SageMaker accessors for accept types and instance types

    A shallow embedding of [sagemaker/accept_types.py] and
    [sagemaker/instance_types.py].

    - Python [str] values are [string]s.  The only characters the code
      inspects are the ASCII characters ".", "d", "g", "5", "m" and "l";
      in a UTF-8 encoded string an ASCII byte never occurs inside the
      encoding of another character, so splitting and searching byte-wise
      agrees with Python's character-wise behaviour.
    - [Optional[str]] parameters are [option string].
    - Raising is modelled by the [Raise] constructor of [result].
    - The two collaborator modules ([sagemaker.jumpstart.utils] and
      [sagemaker.jumpstart.artifacts]) are not part of these files: they are
      taken as records of functions over an abstract world, and every call
      into them is written to a trace. *)

From Stdlib Require Import String Ascii List Bool Arith Lia.
Import ListNotations.

Open Scope string_scope.

(** ** Exceptions and results *)

Inductive exn : Type :=
| ValueError (msg : string)
| IndexError (msg : string)
| OtherException (cls : string) (msg : string).

(** [str(e)] for an exception built from a single message argument. *)
Definition str_of_exn (e : exn) : string :=
  match e with
  | ValueError m => m
  | IndexError m => m
  | OtherException _ m => m
  end.

Inductive result (A : Type) : Type :=
| Ok (a : A)
| Raise (e : exn).

Arguments Ok {A} a.
Arguments Raise {A} e.

Definition bind_result {A B : Type} (r : result A) (k : A -> result B) : result B :=
  match r with
  | Ok a => k a
  | Raise e => Raise e
  end.

Declare Scope result_scope.
Delimit Scope result_scope with result.
Notation "x <- r ;; k" := (bind_result r (fun x => k))
  (at level 61, r at next level, right associativity) : result_scope.

(** [try: body except Exception as e: handler e] *)
Definition try_except {A : Type} (body : result A) (handler : exn -> result A) : result A :=
  match body with
  | Ok a => Ok a
  | Raise e => handler e
  end.

(** ** Python string and list primitives *)

(** [s.split(sep)] for a one-character separator. *)
Fixpoint split (sep : ascii) (s : string) : list string :=
  match s with
  | EmptyString => [EmptyString]
  | String c rest =>
      if Ascii.eqb c sep then EmptyString :: split sep rest
      else match split sep rest with
           | [] => [String c EmptyString]
           | hd :: tl => String c hd :: tl
           end
  end.

(** [sep.join(parts)], the inverse of [split]. *)
Fixpoint join (sep : ascii) (parts : list string) : string :=
  match parts with
  | [] => EmptyString
  | [p] => p
  | p :: rest => p ++ String sep (join sep rest)
  end.

(** [s.startswith(p)] *)
Fixpoint startswith (s p : string) {struct p} : bool :=
  match p with
  | EmptyString => true
  | String a p' =>
      match s with
      | EmptyString => false
      | String b s' => Ascii.eqb a b && startswith s' p'
      end
  end.

(** [sub in s] on strings: substring search. *)
Fixpoint str_in (sub s : string) : bool :=
  startswith s sub ||
  match s with
  | EmptyString => false
  | String _ s' => str_in sub s'
  end.

(** [parts[i]] on a list. *)
Definition getitem {A : Type} (l : list A) (i : nat) : result A :=
  match nth_error l i with
  | Some a => Ok a
  | None => Raise (IndexError "list index out of range")
  end.

(** Propositional readings of the string predicates. *)
Definition contains (sub s : string) : Prop :=
  exists l r, s = l ++ sub ++ r.

Definition has_prefix (p s : string) : Prop :=
  exists r, s = p ++ r.

Fixpoint occurs (c : ascii) (s : string) : Prop :=
  match s with
  | EmptyString => False
  | String a s' => a = c \/ occurs c s'
  end.

(** ** The collaborators

    [sagemaker.jumpstart.utils] and [sagemaker.jumpstart.artifacts] own the
    model catalogue, region defaulting and the vulnerability and deprecation
    checks.  They may read and update state of their own (the [World]) and
    may raise. *)

Record JumpstartUtils (World : Type) : Type := {
  impl_is_jumpstart_model_input :
    option string -> option string -> World -> result bool * World
}.

Record Artifacts (World : Type) : Type := {
  impl_retrieve_supported_accept_types :
    option string -> option string -> option string -> bool -> bool ->
    World -> result (list string) * World;
  impl_retrieve_default_accept_type :
    option string -> option string -> option string -> bool -> bool ->
    World -> result string * World;
  impl_retrieve_default_instance_type :
    option string -> option string -> option string -> option string ->
    bool -> bool -> World -> result string * World;
  impl_retrieve_instance_types :
    option string -> option string -> option string -> option string ->
    bool -> bool -> World -> result (list string) * World
}.

Arguments impl_is_jumpstart_model_input {World}.
Arguments impl_retrieve_supported_accept_types {World}.
Arguments impl_retrieve_default_accept_type {World}.
Arguments impl_retrieve_default_instance_type {World}.
Arguments impl_retrieve_instance_types {World}.

(** A call into a collaborator, with the arguments in the order they are
    passed. *)
Inductive Call : Type :=
| Call_is_jumpstart_model_input (model_id model_version : option string)
| Call_retrieve_supported_accept_types
    (model_id model_version region : option string)
    (tolerate_vulnerable_model tolerate_deprecated_model : bool)
| Call_retrieve_default_accept_type
    (model_id model_version region : option string)
    (tolerate_vulnerable_model tolerate_deprecated_model : bool)
| Call_retrieve_default_instance_type
    (model_id model_version scope region : option string)
    (tolerate_vulnerable_model tolerate_deprecated_model : bool)
| Call_retrieve_instance_types
    (model_id model_version scope region : option string)
    (tolerate_vulnerable_model tolerate_deprecated_model : bool).

(** The calls that reach the resolver ([artifacts]). *)
Definition is_resolver_call (c : Call) : bool :=
  match c with
  | Call_is_jumpstart_model_input _ _ => false
  | _ => true
  end.

Definition resolver_calls (t : list Call) : list Call :=
  filter is_resolver_call t.

(** ** State and error monad of the accessors *)

Record State (World : Type) : Type := {
  world : World;
  trace : list Call
}.

Arguments Build_State {World}.
Arguments world {World}.
Arguments trace {World}.

Definition M (World A : Type) : Type := State World -> result A * State World.

Definition ret {World A : Type} (a : A) : M World A :=
  fun st => (Ok a, st).

Definition raise {World A : Type} (e : exn) : M World A :=
  fun st => (Raise e, st).

Definition bind {World A B : Type} (m : M World A) (k : A -> M World B) : M World B :=
  fun st =>
    match m st with
    | (Ok a, st') => k a st'
    | (Raise e, st') => (Raise e, st')
    end.

(** Run a collaborator function on the current world and log the call. *)
Definition invoke {World A : Type} (c : Call)
    (f : World -> result A * World) : M World A :=
  fun st =>
    let (r, w) := f (world st) in
    (r, {| world := w; trace := (trace st ++ [c])%list |}).

Declare Scope accessor_scope.
Delimit Scope accessor_scope with accessor.
Notation "x <- m ;; k" := (bind m (fun x => k))
  (at level 61, m at next level, right associativity) : accessor_scope.

Module jumpstart_utils.
Section WithImpl.
Context {World : Type} (impl : JumpstartUtils World).

Definition is_jumpstart_model_input (model_id model_version : option string)
  : M World bool :=
  invoke (Call_is_jumpstart_model_input model_id model_version)
         (impl_is_jumpstart_model_input impl model_id model_version).
End WithImpl.
End jumpstart_utils.

Module artifacts.
Section WithImpl.
Context {World : Type} (impl : Artifacts World).

Definition _retrieve_supported_accept_types
    (model_id model_version region : option string)
    (tolerate_vulnerable_model tolerate_deprecated_model : bool)
  : M World (list string) :=
  invoke (Call_retrieve_supported_accept_types model_id model_version region
            tolerate_vulnerable_model tolerate_deprecated_model)
         (impl_retrieve_supported_accept_types impl model_id model_version region
            tolerate_vulnerable_model tolerate_deprecated_model).

Definition _retrieve_default_accept_type
    (model_id model_version region : option string)
    (tolerate_vulnerable_model tolerate_deprecated_model : bool)
  : M World string :=
  invoke (Call_retrieve_default_accept_type model_id model_version region
            tolerate_vulnerable_model tolerate_deprecated_model)
         (impl_retrieve_default_accept_type impl model_id model_version region
            tolerate_vulnerable_model tolerate_deprecated_model).

Definition _retrieve_default_instance_type
    (model_id model_version scope region : option string)
    (tolerate_vulnerable_model tolerate_deprecated_model : bool)
  : M World string :=
  invoke (Call_retrieve_default_instance_type model_id model_version scope region
            tolerate_vulnerable_model tolerate_deprecated_model)
         (impl_retrieve_default_instance_type impl model_id model_version scope region
            tolerate_vulnerable_model tolerate_deprecated_model).

Definition _retrieve_instance_types
    (model_id model_version scope region : option string)
    (tolerate_vulnerable_model tolerate_deprecated_model : bool)
  : M World (list string) :=
  invoke (Call_retrieve_instance_types model_id model_version scope region
            tolerate_vulnerable_model tolerate_deprecated_model)
         (impl_retrieve_instance_types impl model_id model_version scope region
            tolerate_vulnerable_model tolerate_deprecated_model).
End WithImpl.
End artifacts.

(** ** accept_types.py *)

Module accept_types.

Definition invalid_model_msg : string :=
  "Must specify JumpStart `model_id` and `model_version` when retrieving accept types.".

Section WithCollaborators.
Context {World : Type} (utils : JumpstartUtils World) (arts : Artifacts World).

Definition retrieve_options
    (region model_id model_version : option string)
    (tolerate_vulnerable_model tolerate_deprecated_model : bool)
  : M World (list string) :=
  (valid <- jumpstart_utils.is_jumpstart_model_input utils model_id model_version ;;
   if negb valid then raise (ValueError invalid_model_msg)
   else
     artifacts._retrieve_supported_accept_types arts
       model_id model_version region
       tolerate_vulnerable_model tolerate_deprecated_model)%accessor.

Definition retrieve_default
    (region model_id model_version : option string)
    (tolerate_vulnerable_model tolerate_deprecated_model : bool)
  : M World string :=
  (valid <- jumpstart_utils.is_jumpstart_model_input utils model_id model_version ;;
   if negb valid then raise (ValueError invalid_model_msg)
   else
     artifacts._retrieve_default_accept_type arts
       model_id model_version region
       tolerate_vulnerable_model tolerate_deprecated_model)%accessor.
End WithCollaborators.

End accept_types.

(** ** instance_types.py *)

Module instance_types.

Definition invalid_model_msg : string :=
  "Must specify JumpStart `model_id` and `model_version` when retrieving instance types.".

Definition missing_scope_msg : string :=
  "Must specify scope for instance types.".

Section WithCollaborators.
Context {World : Type} (utils : JumpstartUtils World) (arts : Artifacts World).

Definition retrieve_default
    (region model_id model_version scope : option string)
    (tolerate_vulnerable_model tolerate_deprecated_model : bool)
  : M World string :=
  (valid <- jumpstart_utils.is_jumpstart_model_input utils model_id model_version ;;
   if negb valid then raise (ValueError invalid_model_msg)
   else
     match scope with
     | None => raise (ValueError missing_scope_msg)
     | Some _ =>
         artifacts._retrieve_default_instance_type arts
           model_id model_version scope region
           tolerate_vulnerable_model tolerate_deprecated_model
     end)%accessor.

Definition retrieve
    (region model_id model_version scope : option string)
    (tolerate_vulnerable_model tolerate_deprecated_model : bool)
  : M World (list string) :=
  (valid <- jumpstart_utils.is_jumpstart_model_input utils model_id model_version ;;
   if negb valid then raise (ValueError invalid_model_msg)
   else
     match scope with
     | None => raise (ValueError missing_scope_msg)
     | Some _ =>
         artifacts._retrieve_instance_types arts
           model_id model_version scope region
           tolerate_vulnerable_model tolerate_deprecated_model
     end)%accessor.

End WithCollaborators.

(** [volume_size_supported] uses neither collaborator. *)

Definition malformed_msg : string :=
  "Instance type must have 2 periods and start with 'ml'.".

Definition parse_failure_msg (instance_type : string) (e : exn) : string :=
  "Failed to parse instance type '" ++ instance_type ++ "': " ++ str_of_exn e.

(** The body of the [try] block. *)
Definition volume_size_supported_body (instance_type : string) : result bool :=
  (let parts := split "." instance_type in
   bad <- (if negb (Nat.eqb (List.length parts) 3) then Ok true
           else p0 <- getitem parts 0 ;; Ok (negb (String.eqb p0 "ml"))) ;;
   if (bad : bool) then Raise (ValueError malformed_msg)
   else
     family <- getitem parts 1 ;;
     Ok (negb (str_in "d" family) && negb (startswith family "g5")))%result.

Definition volume_size_supported (instance_type : string) : result bool :=
  try_except (volume_size_supported_body instance_type)
    (fun e => Raise (ValueError (parse_failure_msg instance_type e))).

End instance_types.

(** ** A concrete collaborator

    A catalogue of two models; the world counts the calls served. *)

Definition demo_catalog : list (string * string) :=
  [("pytorch-ic-mobilenet-v2", "1.0.0"); ("huggingface-txt2img", "2.1.0")].

Definition in_catalog (model_id model_version : string) : bool :=
  existsb (fun e => String.eqb (fst e) model_id && String.eqb (snd e) model_version)
          demo_catalog.

Definition demo_utils : JumpstartUtils nat := {|
  impl_is_jumpstart_model_input := fun model_id model_version w =>
    match model_id, model_version with
    | Some i, Some v => (Ok (in_catalog i v), S w)
    | _, _ => (Ok false, S w)
    end
|}.

Definition demo_instance_types (scope : option string) : result (list string) :=
  match scope with
  | Some sc =>
      if String.eqb sc "training" then Ok ["ml.p3.2xlarge"; "ml.g5.2xlarge"]
      else if String.eqb sc "inference" then Ok ["ml.m5.large"; "ml.c5d.xlarge"]
      else Raise (OtherException "KeyError" sc)
  | None => Raise (OtherException "TypeError" "scope")
  end.

Definition demo_artifacts : Artifacts nat := {|
  impl_retrieve_supported_accept_types := fun _ _ _ _ _ w =>
    (Ok ["application/json"; "text/csv"], S w);
  impl_retrieve_default_accept_type := fun _ _ _ _ _ w =>
    (Ok "application/json", S w);
  impl_retrieve_default_instance_type := fun _ _ scope _ _ _ w =>
    ((tys <- demo_instance_types scope ;; getitem tys 0)%result, S w);
  impl_retrieve_instance_types := fun _ _ scope _ _ _ w =>
    (demo_instance_types scope, S w)
|}.

Definition demo_start : State nat := {| world := 0; trace := [] |}.

(** ** Vocabulary of the accessor properties *)

(** The state an accessor is in once the identifier check has answered. *)
Definition checked {World : Type} (st : State World) (w : World)
    (model_id model_version : option string) : State World :=
  {| world := w;
     trace := (trace st ++ [Call_is_jumpstart_model_input model_id model_version])%list |}.

(** An accessor run that ends by handing over to one resolver function:
    its outcome is the resolver's, and the resolver call [c] is the only
    call made after the check. *)
Definition delegated {World A : Type} (out : result A * State World)
    (after_check : State World) (c : Call) (f : World -> result A * World) : Prop :=
  out = (fst (f (world after_check)),
         {| world := snd (f (world after_check));
            trace := (trace after_check ++ [c])%list |}).

(** Unfolding an accessor down to the collaborator calls. *)
Ltac run_accessor :=
  unfold accept_types.retrieve_options, accept_types.retrieve_default,
    instance_types.retrieve_default, instance_types.retrieve,
    artifacts._retrieve_supported_accept_types,
    artifacts._retrieve_default_accept_type,
    artifacts._retrieve_default_instance_type,
    artifacts._retrieve_instance_types,
    jumpstart_utils.is_jumpstart_model_input, bind, raise, invoke.

Ltac run_accessor_with H :=
  run_accessor; cbn [world trace]; rewrite H; cbn [negb world trace fst snd].

(** The number of occurrences of a character, to count the periods of an
    instance type. *)
Fixpoint count_char (c : ascii) (s : string) : nat :=
  match s with
  | EmptyString => 0
  | String a s' => (if Ascii.eqb a c then 1 else 0) + count_char c s'
  end.

(** The calls an accessor makes once the identifier check has answered:
    the resolver call [c] when the answer is true and the accessor's own
    preconditions [ready] hold, none otherwise. *)
Definition calls_after_check (answer : result bool) (ready : bool) (c : Call)
  : list Call :=
  match answer with
  | Ok true => if ready then [c] else []
  | _ => []
  end.

(** [scope is not None] *)
Definition is_not_None {A : Type} (o : option A) : bool :=
  match o with
  | Some _ => true
  | None => false
  end.

(** A collaborator whose identifier check raises when exactly one of
    model_id and model_version is given. *)
Definition strict_utils : JumpstartUtils nat := {|
  impl_is_jumpstart_model_input := fun model_id model_version w =>
    match model_id, model_version with
    | Some i, Some v => (Ok (in_catalog i v), S w)
    | None, None => (Ok false, S w)
    | _, _ => (Raise (ValueError "model_id and model_version go together"), S w)
    end
|}.

(** * Properties *)

(** ** Strings *)

Lemma append_assoc (a b c : string) : (a ++ b) ++ c = a ++ b ++ c.
Proof.
  induction a as [|x a IH]; simpl; [reflexivity | now rewrite IH].
Qed.

Lemma append_empty_r (a : string) : a ++ EmptyString = a.
Proof.
  induction a as [|x a IH]; simpl; [reflexivity | now rewrite IH].
Qed.

Lemma startswith_iff (s p : string) : startswith s p = true <-> has_prefix p s.
Proof.
  unfold has_prefix. revert s.
  induction p as [|a p IH]; intros s; simpl.
  - split; [intros _; now exists s | reflexivity].
  - destruct s as [|b s].
    + split; [discriminate | intros [r Hr]; discriminate].
    + rewrite andb_true_iff, Ascii.eqb_eq, IH. split.
      * intros [-> [r ->]]. now exists r.
      * intros [r Hr]. injection Hr as -> ->. split; [reflexivity | now exists r].
Qed.

Lemma str_in_iff (sub s : string) : str_in sub s = true <-> contains sub s.
Proof.
  unfold contains.
  induction s as [|c s IH]; simpl str_in; rewrite orb_true_iff, startswith_iff.
  - split.
    + intros [[r Hr] | Hf]; [| discriminate].
      exists EmptyString, r. exact Hr.
    + intros (l & r & H). left.
      destruct l; [| discriminate]. now exists r.
  - rewrite IH. split.
    + intros [[r Hr] | (l & r & Hs)].
      * exists EmptyString, r. exact Hr.
      * exists (String c l), r. simpl. now rewrite Hs.
    + intros (l & r & H). destruct l as [|x l].
      * left. now exists r.
      * right. simpl in H. injection H as _ H. now exists l, r.
Qed.

Lemma contains_occurs (c : ascii) (s : string) :
  contains (String c EmptyString) s <-> occurs c s.
Proof.
  unfold contains. induction s as [|a s IH]; simpl.
  - split; [| tauto]. intros (l & r & H). destruct l; discriminate.
  - rewrite <- IH. split.
    + intros (l & r & H). destruct l as [|x l]; simpl in H; injection H as -> H.
      * now left.
      * right. now exists l, r.
    + intros [-> | (l & r & ->)].
      * now exists EmptyString, s.
      * now exists (String a l), r.
Qed.

Lemma split_not_nil (sep : ascii) (s : string) : split sep s <> [].
Proof.
  induction s as [|c s IH]; simpl; [discriminate |].
  destruct (Ascii.eqb c sep); [discriminate |].
  destruct (split sep s); discriminate.
Qed.

(** A segment without the separator is returned whole. *)
Lemma split_no_sep (sep : ascii) (s : string) :
  ~ occurs sep s -> split sep s = [s].
Proof.
  induction s as [|c s IH]; simpl; intros H; [reflexivity |].
  destruct (Ascii.eqb_spec c sep) as [E | E]; [tauto |].
  rewrite IH by tauto. reflexivity.
Qed.

(** The first separator ends the first segment. *)
Lemma split_app_sep (sep : ascii) (a rest : string) :
  ~ occurs sep a ->
  split sep (a ++ String sep rest) = a :: split sep rest.
Proof.
  induction a as [|c a IH]; simpl; intros H.
  - now rewrite Ascii.eqb_refl.
  - destruct (Ascii.eqb_spec c sep) as [E | E]; [tauto |].
    rewrite IH by tauto. reflexivity.
Qed.

Lemma join_cons (sep : ascii) (p : string) (rest : list string) :
  rest <> [] -> join sep (p :: rest) = p ++ String sep (join sep rest).
Proof.
  destruct rest; [contradiction | reflexivity].
Qed.

(** [split] produces separator-free segments whose [join] is the input. *)
Lemma join_split (sep : ascii) (s : string) :
  join sep (split sep s) = s /\ Forall (fun p => ~ occurs sep p) (split sep s).
Proof.
  induction s as [|c s [IHj IHf]]; simpl split.
  - split; [reflexivity | constructor; [simpl; tauto | constructor]].
  - pose proof (split_not_nil sep s) as Hn.
    destruct (Ascii.eqb_spec c sep) as [E | E].
    + subst c. split.
      * rewrite join_cons by exact Hn. simpl. now rewrite IHj.
      * constructor; [simpl; tauto | exact IHf].
    + destruct (split sep s) as [|hd tl]; [contradiction |].
      pose proof (Forall_inv IHf) as Hhd.
      pose proof (Forall_inv_tail IHf) as Htl. split.
      * destruct tl as [|t tl]; [simpl in *; now rewrite IHj |].
        rewrite (join_cons sep (String c hd)) by discriminate.
        rewrite (join_cons sep hd) in IHj by discriminate.
        rewrite <- IHj. reflexivity.
      * constructor; [simpl in *; tauto | exact Htl].
Qed.

Lemma split_three (sep : ascii) (a b c : string) :
  ~ occurs sep a -> ~ occurs sep b -> ~ occurs sep c ->
  split sep (a ++ String sep (b ++ String sep c)) = [a; b; c].
Proof.
  intros Ha Hb Hc.
  rewrite split_app_sep by exact Ha.
  rewrite split_app_sep by exact Hb.
  now rewrite split_no_sep by exact Hc.
Qed.

(** Three segments mean exactly two separators, placed between them. *)
Lemma split_three_inv (sep : ascii) (s a b c : string) :
  split sep s = [a; b; c] ->
  s = a ++ String sep (b ++ String sep c)
  /\ ~ occurs sep a /\ ~ occurs sep b /\ ~ occurs sep c.
Proof.
  intros H. destruct (join_split sep s) as [Hj Hf].
  rewrite H in Hj, Hf. split; [now rewrite <- Hj |].
  pose proof (Forall_inv Hf) as Ha.
  pose proof (Forall_inv (Forall_inv_tail Hf)) as Hb.
  pose proof (Forall_inv (Forall_inv_tail (Forall_inv_tail Hf))) as Hc.
  simpl in Ha, Hb, Hc. tauto.
Qed.

(** ** volume_size_supported *)

(** On three segments led by "ml" the [try] block returns the exclusion
    rule applied to the second segment. *)
Lemma volume_size_supported_on_parts (instance_type family size : string) :
  split "." instance_type = ["ml"; family; size] ->
  instance_types.volume_size_supported instance_type
  = Ok (negb (str_in "d" family) && negb (startswith family "g5")).
Proof.
  intros Hs.
  unfold instance_types.volume_size_supported,
    instance_types.volume_size_supported_body.
  rewrite Hs. reflexivity.
Qed.

(** The same on the shape [ml.<family>.<size>] with dot-free segments. *)
Lemma volume_size_supported_on_shape (family size : string) :
  ~ occurs "." family -> ~ occurs "." size ->
  instance_types.volume_size_supported ("ml." ++ family ++ "." ++ size)
  = Ok (negb (str_in "d" family) && negb (startswith family "g5")).
Proof.
  intros Hf Hs. apply (volume_size_supported_on_parts _ family size).
  apply (split_three "." "ml" family size); [| exact Hf | exact Hs].
  simpl. intros [E | [E | []]]; discriminate E.
Qed.

Lemma exclusion_rule_true_iff (family : string) :
  negb (str_in "d" family) && negb (startswith family "g5") = true
  <-> ~ contains "d" family /\ ~ has_prefix "g5" family.
Proof.
  rewrite andb_true_iff, !negb_true_iff, <- !not_true_iff_false.
  now rewrite str_in_iff, startswith_iff.
Qed.

(** Every other input makes the [try] block raise the format error. *)
Lemma volume_size_supported_body_malformed (instance_type : string) :
  List.length (split "." instance_type) <> 3
  \/ nth_error (split "." instance_type) 0 <> Some "ml" ->
  instance_types.volume_size_supported_body instance_type
  = Raise (ValueError instance_types.malformed_msg).
Proof.
  intros H. unfold instance_types.volume_size_supported_body.
  destruct (Nat.eqb_spec (List.length (split "." instance_type)) 3) as [E | E];
    [| reflexivity].
  destruct H as [H | H]; [contradiction |].
  destruct (split "." instance_type) as [|p0 rest]; [discriminate E |].
  simpl in *.
  destruct (String.eqb_spec p0 "ml") as [-> | N]; [now elim H | reflexivity].
Qed.

(** C1: on a string that splits on "." into exactly three segments, the
    first being "ml", [volume_size_supported] returns a boolean, and that
    boolean is true if and only if the second segment neither contains "d"
    nor starts with "g5". *)
Theorem volume_size_supported_rule (instance_type family size : string) :
  split "." instance_type = ["ml"; family; size] ->
  exists b : bool,
    instance_types.volume_size_supported instance_type = Ok b
    /\ (b = true <-> ~ contains "d" family /\ ~ has_prefix "g5" family).
Proof.
  intros Hs. eexists. split.
  - exact (volume_size_supported_on_parts _ _ _ Hs).
  - apply exclusion_rule_true_iff.
Qed.

Lemma volume_size_supported_rule_witness :
  exists b : bool,
    instance_types.volume_size_supported "ml.m5d.large" = Ok b
    /\ (b = true <-> ~ contains "d" "m5d" /\ ~ has_prefix "g5" "m5d").
Proof.
  apply (volume_size_supported_rule "ml.m5d.large" "m5d" "large").
  reflexivity.
Defined.

(** C2: on a string that does not split on "." into exactly three segments,
    or whose first segment is not "ml", [volume_size_supported] raises
    ValueError and returns no boolean; the message is the parse-failure
    text built around the input, so it contains the input string and the
    text of the underlying format error. *)
Theorem volume_size_supported_malformed (instance_type : string) :
  List.length (split "." instance_type) <> 3
  \/ nth_error (split "." instance_type) 0 <> Some "ml" ->
  exists msg : string,
    instance_types.volume_size_supported instance_type = Raise (ValueError msg)
    /\ msg = "Failed to parse instance type '" ++ instance_type ++ "': "
             ++ "Instance type must have 2 periods and start with 'ml'."
    /\ contains instance_type msg
    /\ contains "Instance type must have 2 periods and start with 'ml'." msg
    /\ forall b : bool, instance_types.volume_size_supported instance_type <> Ok b.
Proof.
  intros H.
  pose proof (volume_size_supported_body_malformed _ H) as Hb.
  unfold instance_types.volume_size_supported. rewrite Hb. simpl try_except.
  eexists. split; [reflexivity |].
  unfold instance_types.parse_failure_msg, instance_types.malformed_msg.
  cbn [str_of_exn].
  split; [reflexivity |]. split; [| split].
  - exists "Failed to parse instance type '",
      ("': " ++ "Instance type must have 2 periods and start with 'ml'.").
    reflexivity.
  - exists ("Failed to parse instance type '" ++ instance_type ++ "': "),
      EmptyString.
    rewrite append_empty_r, !append_assoc. reflexivity.
  - discriminate.
Qed.

Lemma volume_size_supported_malformed_witness :
  exists msg : string,
    instance_types.volume_size_supported "notml.c5.large" = Raise (ValueError msg)
    /\ msg = "Failed to parse instance type '" ++ "notml.c5.large" ++ "': "
             ++ "Instance type must have 2 periods and start with 'ml'."
    /\ contains "notml.c5.large" msg
    /\ contains "Instance type must have 2 periods and start with 'ml'." msg
    /\ forall b : bool, instance_types.volume_size_supported "notml.c5.large" <> Ok b.
Proof.
  apply (volume_size_supported_malformed "notml.c5.large").
  right. simpl. discriminate.
Defined.

(** C7: the four documented instance types: "ml.c5d.xlarge" and
    "ml.g5.2xlarge" give false, "ml.p3.2xlarge" and "ml.m5.large" give
    true. *)
Theorem volume_size_supported_examples :
  instance_types.volume_size_supported "ml.c5d.xlarge" = Ok false
  /\ instance_types.volume_size_supported "ml.g5.2xlarge" = Ok false
  /\ instance_types.volume_size_supported "ml.p3.2xlarge" = Ok true
  /\ instance_types.volume_size_supported "ml.m5.large" = Ok true.
Proof.
  repeat split; reflexivity.
Qed.

(** C8: empty segments are accepted.  An input with exactly two dots and
    first segment "ml" whose family or size segment is empty does not
    raise; with an empty family the result is true. *)
Theorem volume_size_supported_empty_segments (instance_type family size : string) :
  split "." instance_type = ["ml"; family; size] ->
  family = EmptyString \/ size = EmptyString ->
  (exists b : bool, instance_types.volume_size_supported instance_type = Ok b)
  /\ (forall e : exn, instance_types.volume_size_supported instance_type <> Raise e)
  /\ (family = EmptyString ->
      instance_types.volume_size_supported instance_type = Ok true).
Proof.
  intros Hs _.
  rewrite (volume_size_supported_on_parts _ _ _ Hs).
  split; [eexists; reflexivity |]. split; [discriminate |].
  intros ->. reflexivity.
Qed.

Lemma volume_size_supported_empty_segments_witness :
  instance_types.volume_size_supported "ml..xlarge" = Ok true
  /\ exists b : bool, instance_types.volume_size_supported "ml.m5." = Ok b.
Proof.
  split.
  - apply (volume_size_supported_empty_segments "ml..xlarge" EmptyString "xlarge");
      [reflexivity | left; reflexivity | reflexivity].
  - apply (volume_size_supported_empty_segments "ml.m5." "m5" EmptyString);
      [reflexivity | right; reflexivity].
Defined.

(** C9: the exclusion rule is case-sensitive.  On a well-formed input whose
    family has an uppercase "D" or starts with uppercase "G5", but has no
    lowercase "d" and does not start with lowercase "g5", the result is
    true. *)
Theorem volume_size_supported_case_sensitive (instance_type family size : string) :
  split "." instance_type = ["ml"; family; size] ->
  contains "D" family \/ has_prefix "G5" family ->
  ~ contains "d" family ->
  ~ has_prefix "g5" family ->
  instance_types.volume_size_supported instance_type = Ok true.
Proof.
  intros Hs _ Hd Hg.
  rewrite (volume_size_supported_on_parts _ _ _ Hs). f_equal.
  apply exclusion_rule_true_iff. now split.
Qed.

Lemma no_lower_d_by_search (family : string) :
  str_in "d" family = false -> ~ contains "d" family.
Proof.
  intros H C. apply str_in_iff in C. congruence.
Qed.

Lemma no_g5_prefix_by_test (family : string) :
  startswith family "g5" = false -> ~ has_prefix "g5" family.
Proof.
  intros H C. apply startswith_iff in C. congruence.
Qed.

Lemma volume_size_supported_case_sensitive_witness :
  instance_types.volume_size_supported "ml.C5D.xlarge" = Ok true
  /\ instance_types.volume_size_supported "ml.G5.xlarge" = Ok true.
Proof.
  split.
  - apply (volume_size_supported_case_sensitive "ml.C5D.xlarge" "C5D" "xlarge").
    + reflexivity.
    + left. exists "C5", EmptyString. reflexivity.
    + apply no_lower_d_by_search. reflexivity.
    + apply no_g5_prefix_by_test. reflexivity.
  - apply (volume_size_supported_case_sensitive "ml.G5.xlarge" "G5" "xlarge").
    + reflexivity.
    + right. exists EmptyString. reflexivity.
    + apply no_lower_d_by_search. reflexivity.
    + apply no_g5_prefix_by_test. reflexivity.
Defined.

(** ** The resolver-backed accessors *)

Lemma resolver_calls_app (t u : list Call) :
  resolver_calls (t ++ u) = (resolver_calls t ++ resolver_calls u)%list.
Proof.
  apply filter_app.
Qed.

Lemma resolver_calls_check (t : list Call) (model_id model_version : option string) :
  resolver_calls (t ++ [Call_is_jumpstart_model_input model_id model_version]) =
  resolver_calls t.
Proof.
  rewrite resolver_calls_app. simpl. apply app_nil_r.
Qed.

Lemma invoke_delegated {World A : Type} (c : Call) (f : World -> result A * World)
    (st : State World) :
  delegated (invoke c f st) st c f.
Proof.
  unfold delegated, invoke. now destruct (f (world st)).
Qed.

(** C3 (amended): when the identifier check answers false, each of the four
    resolver-backed accessors raises its ValueError right after the check,
    and no resolver call is added to the trace. *)
Theorem invalid_model_identifier_rejected
    {World : Type} (utils : JumpstartUtils World) (arts : Artifacts World)
    (region model_id model_version scope : option string)
    (tolerate_vulnerable_model tolerate_deprecated_model : bool)
    (st : State World) (w : World) :
  impl_is_jumpstart_model_input utils model_id model_version (world st) = (Ok false, w) ->
  let st' := checked st w model_id model_version in
  accept_types.retrieve_options utils arts region model_id model_version
    tolerate_vulnerable_model tolerate_deprecated_model st
  = (Raise (ValueError accept_types.invalid_model_msg), st')
  /\ accept_types.retrieve_default utils arts region model_id model_version
       tolerate_vulnerable_model tolerate_deprecated_model st
     = (Raise (ValueError accept_types.invalid_model_msg), st')
  /\ instance_types.retrieve_default utils arts region model_id model_version scope
       tolerate_vulnerable_model tolerate_deprecated_model st
     = (Raise (ValueError instance_types.invalid_model_msg), st')
  /\ instance_types.retrieve utils arts region model_id model_version scope
       tolerate_vulnerable_model tolerate_deprecated_model st
     = (Raise (ValueError instance_types.invalid_model_msg), st')
  /\ resolver_calls (trace st') = resolver_calls (trace st).
Proof.
  intros H st'. subst st'. unfold checked.
  repeat split; try (run_accessor_with H; reflexivity).
  apply resolver_calls_check.
Qed.

Lemma invalid_model_identifier_rejected_witness :
  accept_types.retrieve_options demo_utils demo_artifacts
    (Some "us-west-2") (Some "no-such-model") (Some "1.0.0") false false demo_start
  = (Raise (ValueError accept_types.invalid_model_msg),
     checked demo_start 1 (Some "no-such-model") (Some "1.0.0"))
  /\ instance_types.retrieve demo_utils demo_artifacts
       (Some "us-west-2") (Some "no-such-model") (Some "1.0.0") (Some "training")
       false false demo_start
     = (Raise (ValueError instance_types.invalid_model_msg),
        checked demo_start 1 (Some "no-such-model") (Some "1.0.0")).
Proof.
  pose proof (invalid_model_identifier_rejected demo_utils demo_artifacts
                (Some "us-west-2") (Some "no-such-model") (Some "1.0.0")
                (Some "training") false false demo_start 1 eq_refl) as H.
  split; [apply H | apply H].
Defined.

(** C3 (as stated) fails for [volume_size_supported]: it takes no model
    identifier and runs no identifier check, so with a collaborator that
    rejects the identifier it still returns a boolean. *)
Lemma volume_size_supported_ignores_model_identifier :
  impl_is_jumpstart_model_input demo_utils None None (world demo_start) = (Ok false, 1)
  /\ instance_types.volume_size_supported "ml.m5.large" = Ok true
  /\ ~ (forall (World : Type) (utils : JumpstartUtils World)
               (model_id model_version : option string) (st : State World)
               (instance_type : string),
           fst (impl_is_jumpstart_model_input utils model_id model_version (world st))
           = Ok false ->
           exists msg : string,
             instance_types.volume_size_supported instance_type
             = Raise (ValueError msg)).
Proof.
  split; [reflexivity |]. split; [reflexivity |].
  intros H.
  destruct (H nat demo_utils None None demo_start "ml.m5.large" eq_refl) as [msg Hm].
  discriminate Hm.
Qed.

(** C4: with a valid model identifier and no scope, both instance-type
    accessors raise the missing-scope ValueError right after the check,
    and no resolver call is added to the trace. *)
Theorem missing_scope_rejected
    {World : Type} (utils : JumpstartUtils World) (arts : Artifacts World)
    (region model_id model_version : option string)
    (tolerate_vulnerable_model tolerate_deprecated_model : bool)
    (st : State World) (w : World) :
  impl_is_jumpstart_model_input utils model_id model_version (world st) = (Ok true, w) ->
  let st' := checked st w model_id model_version in
  instance_types.retrieve_default utils arts region model_id model_version None
    tolerate_vulnerable_model tolerate_deprecated_model st
  = (Raise (ValueError "Must specify scope for instance types."), st')
  /\ instance_types.retrieve utils arts region model_id model_version None
       tolerate_vulnerable_model tolerate_deprecated_model st
     = (Raise (ValueError "Must specify scope for instance types."), st')
  /\ resolver_calls (trace st') = resolver_calls (trace st).
Proof.
  intros H st'. subst st'. unfold checked.
  repeat split; try (run_accessor_with H; reflexivity).
  apply resolver_calls_check.
Qed.

Lemma missing_scope_rejected_witness :
  instance_types.retrieve_default demo_utils demo_artifacts
    None (Some "huggingface-txt2img") (Some "2.1.0") None false false demo_start
  = (Raise (ValueError "Must specify scope for instance types."),
     checked demo_start 1 (Some "huggingface-txt2img") (Some "2.1.0")).
Proof.
  apply (missing_scope_rejected demo_utils demo_artifacts
           None (Some "huggingface-txt2img") (Some "2.1.0") false false
           demo_start 1 eq_refl).
Defined.

(** Whatever the collaborators do, the first call either instance-type
    accessor makes is the identifier check. *)
Lemma instance_accessors_check_first
    {World : Type} (utils : JumpstartUtils World) (arts : Artifacts World)
    (region model_id model_version scope : option string)
    (tolerate_vulnerable_model tolerate_deprecated_model : bool)
    (st : State World) :
  (exists rest : list Call,
     trace (snd (instance_types.retrieve_default utils arts region model_id
                   model_version scope tolerate_vulnerable_model
                   tolerate_deprecated_model st))
     = (trace st ++ Call_is_jumpstart_model_input model_id model_version :: rest)%list)
  /\ (exists rest : list Call,
        trace (snd (instance_types.retrieve utils arts region model_id
                      model_version scope tolerate_vulnerable_model
                      tolerate_deprecated_model st))
        = (trace st ++ Call_is_jumpstart_model_input model_id model_version :: rest)%list).
Proof.
  split; run_accessor;
    destruct (impl_is_jumpstart_model_input utils model_id model_version (world st))
      as [[[|]|e] w]; destruct scope as [sc|]; simpl;
    try (exists []; reflexivity).
  - destruct (impl_retrieve_default_instance_type arts model_id model_version
                (Some sc) region tolerate_vulnerable_model
                tolerate_deprecated_model w) as [r w2].
    eexists. simpl. rewrite <- app_assoc. reflexivity.
  - destruct (impl_retrieve_instance_types arts model_id model_version
                (Some sc) region tolerate_vulnerable_model
                tolerate_deprecated_model w) as [r w2].
    eexists. simpl. rewrite <- app_assoc. reflexivity.
Qed.

(** C5: the identifier check comes first.  When the check answers false
    while the scope is unset, the error raised by [retrieve_default] and
    [retrieve] is the invalid-identifier ValueError, which names model_id
    and model_version and is not the missing-scope error, and the check is
    the only call made; and whatever the scope, the first call of either
    accessor is the identifier check. *)
Theorem model_identifier_checked_before_scope
    {World : Type} (utils : JumpstartUtils World) (arts : Artifacts World)
    (region model_id model_version scope : option string)
    (tolerate_vulnerable_model tolerate_deprecated_model : bool)
    (st : State World) (w : World) :
  impl_is_jumpstart_model_input utils model_id model_version (world st) = (Ok false, w) ->
  scope = None ->
  let e := ValueError
    "Must specify JumpStart `model_id` and `model_version` when retrieving instance types." in
  let out_default :=
    instance_types.retrieve_default utils arts region model_id model_version scope
      tolerate_vulnerable_model tolerate_deprecated_model st in
  let out_all :=
    instance_types.retrieve utils arts region model_id model_version scope
      tolerate_vulnerable_model tolerate_deprecated_model st in
  fst out_default = Raise e
  /\ fst out_all = Raise e
  /\ e <> ValueError instance_types.missing_scope_msg
  /\ contains "model_id" (str_of_exn e)
  /\ contains "model_version" (str_of_exn e)
  /\ trace (snd out_default)
     = (trace st ++ [Call_is_jumpstart_model_input model_id model_version])%list
  /\ trace (snd out_all)
     = (trace st ++ [Call_is_jumpstart_model_input model_id model_version])%list
  /\ (forall any_scope : option string,
        exists rest : list Call,
          trace (snd (instance_types.retrieve_default utils arts region model_id
                        model_version any_scope tolerate_vulnerable_model
                        tolerate_deprecated_model st))
          = (trace st
             ++ Call_is_jumpstart_model_input model_id model_version :: rest)%list)
  /\ (forall any_scope : option string,
        exists rest : list Call,
          trace (snd (instance_types.retrieve utils arts region model_id
                        model_version any_scope tolerate_vulnerable_model
                        tolerate_deprecated_model st))
          = (trace st
             ++ Call_is_jumpstart_model_input model_id model_version :: rest)%list).
Proof.
  intros H -> e out_default out_all. subst e out_default out_all.
  repeat match goal with |- _ /\ _ => split end;
    try (run_accessor_with H; reflexivity).
  - discriminate.
  - exists "Must specify JumpStart `",
      "` and `model_version` when retrieving instance types.".
    reflexivity.
  - exists "Must specify JumpStart `model_id` and `",
      "` when retrieving instance types.".
    reflexivity.
  - intros any_scope. apply instance_accessors_check_first.
  - intros any_scope. apply instance_accessors_check_first.
Qed.

Lemma model_identifier_checked_before_scope_witness :
  fst (instance_types.retrieve_default demo_utils demo_artifacts
         None None None None false false demo_start)
  = Raise (ValueError
      "Must specify JumpStart `model_id` and `model_version` when retrieving instance types.").
Proof.
  apply (model_identifier_checked_before_scope demo_utils demo_artifacts
           None None None None false false demo_start 1 eq_refl eq_refl).
Defined.

(** C6: with a valid model identifier (and, for instance types, a scope),
    each accessor hands over to its resolver function with the arguments it
    was given, in the resolver's order, and its outcome is the resolver's
    outcome, unchanged. *)
Theorem accessors_delegate_to_resolver
    {World : Type} (utils : JumpstartUtils World) (arts : Artifacts World)
    (region model_id model_version : option string) (scope : string)
    (tolerate_vulnerable_model tolerate_deprecated_model : bool)
    (st : State World) (w : World) :
  impl_is_jumpstart_model_input utils model_id model_version (world st) = (Ok true, w) ->
  let st' := checked st w model_id model_version in
  delegated
    (accept_types.retrieve_options utils arts region model_id model_version
       tolerate_vulnerable_model tolerate_deprecated_model st)
    st'
    (Call_retrieve_supported_accept_types model_id model_version region
       tolerate_vulnerable_model tolerate_deprecated_model)
    (impl_retrieve_supported_accept_types arts model_id model_version region
       tolerate_vulnerable_model tolerate_deprecated_model)
  /\ delegated
       (accept_types.retrieve_default utils arts region model_id model_version
          tolerate_vulnerable_model tolerate_deprecated_model st)
       st'
       (Call_retrieve_default_accept_type model_id model_version region
          tolerate_vulnerable_model tolerate_deprecated_model)
       (impl_retrieve_default_accept_type arts model_id model_version region
          tolerate_vulnerable_model tolerate_deprecated_model)
  /\ delegated
       (instance_types.retrieve_default utils arts region model_id model_version
          (Some scope) tolerate_vulnerable_model tolerate_deprecated_model st)
       st'
       (Call_retrieve_default_instance_type model_id model_version (Some scope)
          region tolerate_vulnerable_model tolerate_deprecated_model)
       (impl_retrieve_default_instance_type arts model_id model_version
          (Some scope) region tolerate_vulnerable_model tolerate_deprecated_model)
  /\ delegated
       (instance_types.retrieve utils arts region model_id model_version
          (Some scope) tolerate_vulnerable_model tolerate_deprecated_model st)
       st'
       (Call_retrieve_instance_types model_id model_version (Some scope)
          region tolerate_vulnerable_model tolerate_deprecated_model)
       (impl_retrieve_instance_types arts model_id model_version
          (Some scope) region tolerate_vulnerable_model tolerate_deprecated_model).
Proof.
  intros H st'. subst st'.
  repeat split;
    unfold accept_types.retrieve_options, accept_types.retrieve_default,
      instance_types.retrieve_default, instance_types.retrieve,
      artifacts._retrieve_supported_accept_types,
      artifacts._retrieve_default_accept_type,
      artifacts._retrieve_default_instance_type,
      artifacts._retrieve_instance_types,
      jumpstart_utils.is_jumpstart_model_input, bind;
    unfold invoke at 1; rewrite H; cbn [negb];
    apply invoke_delegated.
Qed.

Lemma accessors_delegate_to_resolver_witness :
  accept_types.retrieve_default demo_utils demo_artifacts
    (Some "eu-west-1") (Some "huggingface-txt2img") (Some "2.1.0") false true
    demo_start
  = (Ok "application/json",
     {| world := 2;
        trace := [Call_is_jumpstart_model_input
                    (Some "huggingface-txt2img") (Some "2.1.0");
                  Call_retrieve_default_accept_type
                    (Some "huggingface-txt2img") (Some "2.1.0")
                    (Some "eu-west-1") false true] |}).
Proof.
  apply (accessors_delegate_to_resolver demo_utils demo_artifacts
           (Some "eu-west-1") (Some "huggingface-txt2img") (Some "2.1.0")
           "inference" false true demo_start 1 eq_refl).
Defined.

(** C10: the scope is not checked against "training" and "inference".  With
    a valid model identifier and any scope string, [retrieve_default] and
    [retrieve] raise nothing of their own: the outcome is the resolver's,
    and the one resolver call made carries the scope as given. *)
Theorem scope_passed_through_unvalidated
    {World : Type} (utils : JumpstartUtils World) (arts : Artifacts World)
    (region model_id model_version : option string) (scope : string)
    (tolerate_vulnerable_model tolerate_deprecated_model : bool)
    (st : State World) (w : World) :
  impl_is_jumpstart_model_input utils model_id model_version (world st) = (Ok true, w) ->
  let out_default :=
    instance_types.retrieve_default utils arts region model_id model_version
      (Some scope) tolerate_vulnerable_model tolerate_deprecated_model st in
  let out_all :=
    instance_types.retrieve utils arts region model_id model_version
      (Some scope) tolerate_vulnerable_model tolerate_deprecated_model st in
  fst out_default
  = fst (impl_retrieve_default_instance_type arts model_id model_version
           (Some scope) region tolerate_vulnerable_model
           tolerate_deprecated_model w)
  /\ resolver_calls (trace (snd out_default))
     = (resolver_calls (trace st)
        ++ [Call_retrieve_default_instance_type model_id model_version
              (Some scope) region tolerate_vulnerable_model
              tolerate_deprecated_model])%list
  /\ fst out_all
     = fst (impl_retrieve_instance_types arts model_id model_version
              (Some scope) region tolerate_vulnerable_model
              tolerate_deprecated_model w)
  /\ resolver_calls (trace (snd out_all))
     = (resolver_calls (trace st)
        ++ [Call_retrieve_instance_types model_id model_version
              (Some scope) region tolerate_vulnerable_model
              tolerate_deprecated_model])%list.
Proof.
  intros H out_default out_all. subst out_default out_all.
  repeat split; run_accessor_with H.
  - now destruct (impl_retrieve_default_instance_type _ _ _ _ _ _ _ w).
  - destruct (impl_retrieve_default_instance_type _ _ _ _ _ _ _ w).
    cbn [snd trace]. now rewrite resolver_calls_app, resolver_calls_check.
  - now destruct (impl_retrieve_instance_types _ _ _ _ _ _ _ w).
  - destruct (impl_retrieve_instance_types _ _ _ _ _ _ _ w).
    cbn [snd trace]. now rewrite resolver_calls_app, resolver_calls_check.
Qed.

Lemma scope_passed_through_unvalidated_witness :
  fst (instance_types.retrieve demo_utils demo_artifacts
         None (Some "pytorch-ic-mobilenet-v2") (Some "1.0.0") (Some "bogus")
         false false demo_start)
  = Raise (OtherException "KeyError" "bogus").
Proof.
  apply (scope_passed_through_unvalidated demo_utils demo_artifacts
           None (Some "pytorch-ic-mobilenet-v2") (Some "1.0.0") "bogus"
           false false demo_start 1 eq_refl).
Defined.

(** * Further properties *)

(** ** Failures of the identifier check *)

(** When the identifier check itself raises, each of the four accessors
    raises that same exception, unwrapped, in the state the check left; no
    resolver call is made and no local message replaces it. *)
Theorem check_exception_propagates
    {World : Type} (utils : JumpstartUtils World) (arts : Artifacts World)
    (region model_id model_version scope : option string)
    (tolerate_vulnerable_model tolerate_deprecated_model : bool)
    (st : State World) (w : World) (e : exn) :
  impl_is_jumpstart_model_input utils model_id model_version (world st) = (Raise e, w) ->
  let st' := checked st w model_id model_version in
  accept_types.retrieve_options utils arts region model_id model_version
    tolerate_vulnerable_model tolerate_deprecated_model st = (Raise e, st')
  /\ accept_types.retrieve_default utils arts region model_id model_version
       tolerate_vulnerable_model tolerate_deprecated_model st = (Raise e, st')
  /\ instance_types.retrieve_default utils arts region model_id model_version scope
       tolerate_vulnerable_model tolerate_deprecated_model st = (Raise e, st')
  /\ instance_types.retrieve utils arts region model_id model_version scope
       tolerate_vulnerable_model tolerate_deprecated_model st = (Raise e, st')
  /\ resolver_calls (trace st') = resolver_calls (trace st).
Proof.
  intros H st'. subst st'. unfold checked.
  repeat split; try (run_accessor_with H; reflexivity).
  apply resolver_calls_check.
Qed.

Lemma check_exception_propagates_witness :
  instance_types.retrieve_default strict_utils demo_artifacts
    None (Some "huggingface-txt2img") None None false false demo_start
  = (Raise (ValueError "model_id and model_version go together"),
     checked demo_start 1 (Some "huggingface-txt2img") None).
Proof.
  apply (check_exception_propagates strict_utils demo_artifacts
           None (Some "huggingface-txt2img") None None false false
           demo_start 1 _ eq_refl).
Defined.

(** ** The shape of the trace *)

Lemma trace_after_invoke {World A : Type} (c : Call)
    (f : World -> result A * World) (st : State World) :
  trace (snd (invoke c f st)) = (trace st ++ [c])%list.
Proof.
  unfold invoke. now destruct (f (world st)).
Qed.

(** Whatever the collaborators answer, an accept-type accessor makes the
    identifier check exactly once, first, and then at most one call: its
    own resolver function with the arguments as given, exactly when the
    check answered true. *)
Theorem accept_types_trace
    {World : Type} (utils : JumpstartUtils World) (arts : Artifacts World)
    (region model_id model_version : option string)
    (tolerate_vulnerable_model tolerate_deprecated_model : bool)
    (st : State World) :
  let answer :=
    fst (impl_is_jumpstart_model_input utils model_id model_version (world st)) in
  trace (snd (accept_types.retrieve_options utils arts region model_id model_version
                tolerate_vulnerable_model tolerate_deprecated_model st))
  = (trace st
     ++ Call_is_jumpstart_model_input model_id model_version
        :: calls_after_check answer true
             (Call_retrieve_supported_accept_types model_id model_version region
                tolerate_vulnerable_model tolerate_deprecated_model))%list
  /\ trace (snd (accept_types.retrieve_default utils arts region model_id model_version
                   tolerate_vulnerable_model tolerate_deprecated_model st))
     = (trace st
        ++ Call_is_jumpstart_model_input model_id model_version
           :: calls_after_check answer true
                (Call_retrieve_default_accept_type model_id model_version region
                   tolerate_vulnerable_model tolerate_deprecated_model))%list.
Proof.
  intros answer. subst answer.
  split;
    unfold accept_types.retrieve_options, accept_types.retrieve_default,
      artifacts._retrieve_supported_accept_types,
      artifacts._retrieve_default_accept_type,
      jumpstart_utils.is_jumpstart_model_input, bind, raise;
    unfold invoke at 1;
    destruct (impl_is_jumpstart_model_input utils model_id model_version (world st))
      as [[[|]|e] w]; cbn [negb fst snd trace calls_after_check];
    try reflexivity;
    rewrite trace_after_invoke; cbn [trace]; now rewrite <- app_assoc.
Qed.

(** The same for the instance-type accessors, where the resolver call also
    needs a scope: it is made exactly when the check answered true and the
    scope is not None. *)
Theorem instance_types_trace
    {World : Type} (utils : JumpstartUtils World) (arts : Artifacts World)
    (region model_id model_version scope : option string)
    (tolerate_vulnerable_model tolerate_deprecated_model : bool)
    (st : State World) :
  let answer :=
    fst (impl_is_jumpstart_model_input utils model_id model_version (world st)) in
  trace (snd (instance_types.retrieve_default utils arts region model_id
                model_version scope tolerate_vulnerable_model
                tolerate_deprecated_model st))
  = (trace st
     ++ Call_is_jumpstart_model_input model_id model_version
        :: calls_after_check answer (is_not_None scope)
             (Call_retrieve_default_instance_type model_id model_version scope
                region tolerate_vulnerable_model tolerate_deprecated_model))%list
  /\ trace (snd (instance_types.retrieve utils arts region model_id
                   model_version scope tolerate_vulnerable_model
                   tolerate_deprecated_model st))
     = (trace st
        ++ Call_is_jumpstart_model_input model_id model_version
           :: calls_after_check answer (is_not_None scope)
                (Call_retrieve_instance_types model_id model_version scope
                   region tolerate_vulnerable_model tolerate_deprecated_model))%list.
Proof.
  intros answer. subst answer.
  split;
    unfold instance_types.retrieve_default, instance_types.retrieve,
      artifacts._retrieve_default_instance_type,
      artifacts._retrieve_instance_types,
      jumpstart_utils.is_jumpstart_model_input, bind, raise;
    unfold invoke at 1;
    destruct (impl_is_jumpstart_model_input utils model_id model_version (world st))
      as [[[|]|e] w]; destruct scope as [sc|];
    cbn [negb fst snd trace calls_after_check is_not_None];
    try reflexivity;
    rewrite trace_after_invoke; cbn [trace]; now rewrite <- app_assoc.
Qed.

(** ** The inputs volume_size_supported accepts *)

Lemma occurs_app (c : ascii) (a b : string) :
  occurs c (a ++ b) <-> occurs c a \/ occurs c b.
Proof.
  induction a as [|x a IH]; simpl; [tauto | rewrite IH; tauto].
Qed.

Lemma length_split (sep : ascii) (s : string) :
  List.length (split sep s) = S (count_char sep s).
Proof.
  induction s as [|c s IH]; simpl; [reflexivity |].
  destruct (Ascii.eqb c sep); simpl.
  - now rewrite IH.
  - pose proof (split_not_nil sep s) as Hn.
    destruct (split sep s) as [|hd tl]; [contradiction | exact IH].
Qed.

(** Every string is either three segments led by "ml", or malformed. *)
Lemma split_classify (s : string) :
  (exists family size : string, split "." s = ["ml"; family; size])
  \/ (List.length (split "." s) <> 3 \/ nth_error (split "." s) 0 <> Some "ml").
Proof.
  destruct (split "." s) as [|p0 [|p1 [|p2 [|p3 rest]]]];
    try (right; left; simpl; lia).
  destruct (String.eqb_spec p0 "ml") as [-> | N].
  - left. now exists p1, p2.
  - right. right. simpl. congruence.
Qed.

(** [volume_size_supported] returns a boolean exactly on the strings of the
    shape ml.<family>.<size> whose family and size contain no period (and
    may be empty); on every other string it raises. *)
Theorem volume_size_supported_returns_iff_shape (instance_type : string) :
  (exists b : bool, instance_types.volume_size_supported instance_type = Ok b)
  <-> (exists family size : string,
         ~ occurs "." family /\ ~ occurs "." size
         /\ instance_type = "ml." ++ family ++ "." ++ size).
Proof.
  split.
  - intros [b Hb].
    destruct (split_classify instance_type) as [(family & size & Hs) | Hm].
    + exists family, size.
      destruct (split_three_inv _ _ _ _ _ Hs) as (E & _ & Hf & Hz).
      repeat split; assumption.
    + unfold instance_types.volume_size_supported in Hb.
      rewrite (volume_size_supported_body_malformed _ Hm) in Hb.
      discriminate Hb.
  - intros (family & size & Hf & Hz & ->).
    rewrite (volume_size_supported_on_shape _ _ Hf Hz). now eexists.
Qed.

(** A string whose number of periods is not two makes
    [volume_size_supported] raise the parse-failure ValueError, as the
    message says. *)
Theorem volume_size_supported_needs_two_periods (instance_type : string) :
  count_char "." instance_type <> 2 ->
  instance_types.volume_size_supported instance_type
  = Raise (ValueError
      ("Failed to parse instance type '" ++ instance_type
       ++ "': Instance type must have 2 periods and start with 'ml'.")).
Proof.
  intros H.
  assert (Hm : List.length (split "." instance_type) <> 3
               \/ nth_error (split "." instance_type) 0 <> Some "ml").
  { left. rewrite length_split. lia. }
  unfold instance_types.volume_size_supported.
  rewrite (volume_size_supported_body_malformed _ Hm). reflexivity.
Qed.

Lemma volume_size_supported_needs_two_periods_witness :
  instance_types.volume_size_supported "ml.p4d.24xlarge.spot"
  = Raise (ValueError
      ("Failed to parse instance type '" ++ "ml.p4d.24xlarge.spot"
       ++ "': Instance type must have 2 periods and start with 'ml'.")).
Proof.
  apply (volume_size_supported_needs_two_periods "ml.p4d.24xlarge.spot").
  simpl. lia.
Defined.

(** ** What the answer depends on *)

(** The size segment plays no part: two well-formed instance types of the
    same family get the same answer. *)
Theorem volume_size_supported_ignores_size
    (instance_type1 instance_type2 family size1 size2 : string) :
  split "." instance_type1 = ["ml"; family; size1] ->
  split "." instance_type2 = ["ml"; family; size2] ->
  instance_types.volume_size_supported instance_type1
  = instance_types.volume_size_supported instance_type2.
Proof.
  intros H1 H2.
  rewrite (volume_size_supported_on_parts _ _ _ H1).
  now rewrite (volume_size_supported_on_parts _ _ _ H2).
Qed.

Lemma volume_size_supported_ignores_size_witness :
  instance_types.volume_size_supported "ml.m5d.large"
  = instance_types.volume_size_supported "ml.m5d.24xlarge".
Proof.
  apply (volume_size_supported_ignores_size
           "ml.m5d.large" "ml.m5d.24xlarge" "m5d" "large" "24xlarge");
    reflexivity.
Defined.

Lemma contains_app_r (sub s x : string) :
  contains sub s -> contains sub (s ++ x).
Proof.
  intros (l & r & ->). exists l, (r ++ x).
  now rewrite !append_assoc.
Qed.

Lemma has_prefix_app_r (p s x : string) :
  has_prefix p s -> has_prefix p (s ++ x).
Proof.
  intros (r & ->). exists (r ++ x). now rewrite append_assoc.
Qed.

(** Exclusion survives any suffix: if a family has no volume-size support,
    neither has any family that extends it (c5d and c5dn, g5 and g5g),
    whatever the sizes. *)
Theorem exclusion_closed_under_suffix (family extra size size' : string) :
  ~ occurs "." family -> ~ occurs "." extra ->
  ~ occurs "." size -> ~ occurs "." size' ->
  instance_types.volume_size_supported ("ml." ++ family ++ "." ++ size) = Ok false ->
  instance_types.volume_size_supported ("ml." ++ (family ++ extra) ++ "." ++ size')
  = Ok false.
Proof.
  intros Hf He Hz Hz'.
  assert (Hfe : ~ occurs "." (family ++ extra)) by (rewrite occurs_app; tauto).
  rewrite (volume_size_supported_on_shape _ _ Hf Hz).
  rewrite (volume_size_supported_on_shape _ _ Hfe Hz').
  intros H. injection H as H. f_equal.
  apply andb_false_iff in H. apply andb_false_iff.
  rewrite !negb_false_iff in *.
  destruct H as [H | H]; [left | right].
  - apply str_in_iff. apply contains_app_r. now apply str_in_iff.
  - apply startswith_iff. apply has_prefix_app_r. now apply startswith_iff.
Qed.

Lemma exclusion_closed_under_suffix_witness :
  instance_types.volume_size_supported ("ml." ++ ("g5" ++ "g") ++ "." ++ "16xlarge")
  = Ok false.
Proof.
  apply (exclusion_closed_under_suffix "g5" "g" "xlarge" "16xlarge");
    try (simpl; intros H; repeat destruct H as [H | H]; solve [discriminate H | exact H]).
  reflexivity.
Defined.
